(** * httplog: the logger configuration ([config.go])

    A shallow embedding of [Configure], [parseLogLevel] and the
    attribute-rewrite closure [replaceAttrs], together with the small part
    of [golang.org/x/exp/slog], [time], [strings] and [os] they touch.

    Go passes [Options] by value, but a [[]string] field is a slice header
    (pointer, length, capacity) into memory the caller still owns, and
    [Configure] writes through it.  The embedding therefore keeps a store of
    string cells and models slices as headers into it. *)

From Stdlib Require Import ZArith Ascii String List Lia.
From stdpp Require Import base strings gmap list functions.

Local Open Scope string_scope.

(** ** Results of code that may panic *)

Inductive result (A : Type) : Type :=
| Ok (a : A)
| Panic (msg : string).
Arguments Ok {A} a.
Arguments Panic {A} msg.

(** The error monad, through stdpp's [mbind] and its [x ← r; k] notation. *)
#[global] Instance result_ret : MRet result := fun A a => Ok a.

#[global] Instance result_bind : MBind result := fun A B k r =>
  match r with
  | Ok a => k a
  | Panic msg => Panic msg
  end.

Definition returns {A : Type} (r : result A) : Prop :=
  match r with Ok _ => True | Panic _ => False end.

(** ** package time *)

Module time.

(** [time.Time] as the runtime lays it out: wall clock word, extended
    seconds and the location (its name; the empty name is UTC). *)
Record Time : Type := { wall : Z; ext : Z; loc : string }.

(** [time.Duration] is an [int64] count of nanoseconds. *)
Definition Nanosecond : Z := 1.
Definition Microsecond : Z := 1000 * Nanosecond.
Definition Millisecond : Z := 1000 * Microsecond.
Definition Second : Z := 1000 * Millisecond.
Definition Minute : Z := 60 * Second.

Definition RFC3339Nano : string := "2006-01-02T15:04:05.999999999Z07:00".

End time.

(** ** package slog (golang.org/x/exp/slog) *)

Module slog.

Definition LevelDebug : Z := -4.
Definition LevelInfo : Z := 0.
Definition LevelWarn : Z := 4.
Definition LevelError : Z := 8.

Definition TimeKey : string := "time".
Definition LevelKey : string := "level".
Definition MessageKey : string := "msg".
Definition SourceKey : string := "source".

Inductive Kind : Type :=
| KindAny | KindBool | KindDuration | KindFloat64 | KindInt64
| KindString | KindTime | KindUint64 | KindGroup | KindLogValuer.

Definition Kind_String (k : Kind) : string :=
  match k with
  | KindAny => "Any"
  | KindBool => "Bool"
  | KindDuration => "Duration"
  | KindFloat64 => "Float64"
  | KindInt64 => "Int64"
  | KindString => "String"
  | KindTime => "Time"
  | KindUint64 => "Uint64"
  | KindGroup => "Group"
  | KindLogValuer => "LogValuer"
  end.

(** [slog.Value], one constructor per kind, named after slog's constructor
    functions.  A float is kept as its IEEE bits, as slog stores it; the
    payloads of [any] and [LogValuer] values are opaque handles; a group
    holds the key and value of each of its attributes. *)
#[warnings="-register-all"] Inductive Value : Type :=
| AnyValue (handle : Z)
| BoolValue (b : bool)
| DurationValue (d : Z)
| Float64Value (bits : Z)
| Int64Value (i : Z)
| StringValue (s : string)
| TimeValue (t : time.Time)
| Uint64Value (u : Z)
| GroupValue (g : list (string * Value))
| LogValuerValue (handle : Z).

Definition Value_Kind (v : Value) : Kind :=
  match v with
  | AnyValue _ => KindAny
  | BoolValue _ => KindBool
  | DurationValue _ => KindDuration
  | Float64Value _ => KindFloat64
  | Int64Value _ => KindInt64
  | StringValue _ => KindString
  | TimeValue _ => KindTime
  | Uint64Value _ => KindUint64
  | GroupValue _ => KindGroup
  | LogValuerValue _ => KindLogValuer
  end.

(** [func (v Value) Time() time.Time]: "It panics if v is not a time.Time." *)
Definition Value_Time (v : Value) : result time.Time :=
  match v with
  | TimeValue t => Ok t
  | _ => Panic ("Value kind is " ++ Kind_String (Value_Kind v) ++ ", not "
                ++ Kind_String KindTime)
  end.

(** [slog.Attr]: the field [Value] is spelled [Val], the name [Value] being
    taken by its type. *)
Record Attr : Type := { Key : string; Val : Value }.

(** [slog.HandlerOptions]: the three fields [Configure] sets. *)
Record HandlerOptions : Type := {
  Level : Z;
  ReplaceAttr : list string -> Attr -> result Attr;
  AddSource : bool
}.

End slog.

(** ** package os: the two streams [Configure] names *)

Inductive File : Type := Stdout | Stderr.

(** ** Memory: string cells and slices of them *)

(** The cells that [[]string] backing arrays occupy, addressed by element
    index.  A store is total: a Go slice always denotes allocated cells, so
    nothing is lost by giving the cells outside every slice some content. *)
Abbreviation Mem := (nat -> string).

(** A slice header.  The nil slice is the header with all three fields 0. *)
Record Slice : Type := { data : nat; len : nat; cap : nat }.

Definition nil_slice : Slice := {| data := 0; len := 0; cap := 0 |}.

(** [s[i]] and [s[i] = v], for [i < len s] (the only indices a [range] loop
    produces). *)
Definition index (m : Mem) (s : Slice) (i : nat) : string := m (data s + i).

Definition set_index (m : Mem) (s : Slice) (i : nat) (v : string) : Mem :=
  <[data s + i := v]> m.

(** The elements a slice denotes in a store, in order. *)
Definition elems (m : Mem) (s : Slice) : list string :=
  map (index m s) (seq 0 (len s)).

(** The cell [a] is one of the slice's. *)
Definition in_slice (s : Slice) (a : nat) : Prop :=
  data s <= a < data s + len s.

#[global] Instance in_slice_dec (s : Slice) (a : nat) : Decision (in_slice s a).
Proof. unfold in_slice. apply _. Defined.

(** The cells of two slices do not overlap. *)
Definition disjoint_slices (s t : Slice) : Prop :=
  data s + len s <= data t \/ data t + len t <= data s.

(** ** Options *)

Record Options : Type := {
  LogLevel : string;
  LevelFieldName : string;
  JSON : bool;
  Concise : bool;
  Tags : option (gmap string string);
  SkipHeaders : Slice;
  QuietDownRoutes : Slice;
  QuietDownPeriod : Z;
  TimeFieldFormat : string;
  TimeFieldName : string;
  SourceFieldName : string
}.

(** The initial value of the package variable [DefaultOptions]. *)
Definition DefaultOptions_init : Options := {|
  LogLevel := "info";
  LevelFieldName := "level";
  JSON := false;
  Concise := false;
  Tags := None;
  SkipHeaders := nil_slice;
  QuietDownRoutes := nil_slice;
  QuietDownPeriod := 0;
  TimeFieldFormat := time.RFC3339Nano;
  TimeFieldName := "timestamp";
  SourceFieldName := ""
|}.

(** Field assignments [opts.F = v] on the local copy of the struct. *)
Definition set_LevelFieldName (v : string) (o : Options) : Options :=
  {| LogLevel := LogLevel o; LevelFieldName := v; JSON := JSON o;
     Concise := Concise o; Tags := Tags o; SkipHeaders := SkipHeaders o;
     QuietDownRoutes := QuietDownRoutes o; QuietDownPeriod := QuietDownPeriod o;
     TimeFieldFormat := TimeFieldFormat o; TimeFieldName := TimeFieldName o;
     SourceFieldName := SourceFieldName o |}.

Definition set_TimeFieldFormat (v : string) (o : Options) : Options :=
  {| LogLevel := LogLevel o; LevelFieldName := LevelFieldName o; JSON := JSON o;
     Concise := Concise o; Tags := Tags o; SkipHeaders := SkipHeaders o;
     QuietDownRoutes := QuietDownRoutes o; QuietDownPeriod := QuietDownPeriod o;
     TimeFieldFormat := v; TimeFieldName := TimeFieldName o;
     SourceFieldName := SourceFieldName o |}.

Definition set_TimeFieldName (v : string) (o : Options) : Options :=
  {| LogLevel := LogLevel o; LevelFieldName := LevelFieldName o; JSON := JSON o;
     Concise := Concise o; Tags := Tags o; SkipHeaders := SkipHeaders o;
     QuietDownRoutes := QuietDownRoutes o; QuietDownPeriod := QuietDownPeriod o;
     TimeFieldFormat := TimeFieldFormat o; TimeFieldName := v;
     SourceFieldName := SourceFieldName o |}.

Definition set_QuietDownPeriod (v : Z) (o : Options) : Options :=
  {| LogLevel := LogLevel o; LevelFieldName := LevelFieldName o; JSON := JSON o;
     Concise := Concise o; Tags := Tags o; SkipHeaders := SkipHeaders o;
     QuietDownRoutes := QuietDownRoutes o; QuietDownPeriod := v;
     TimeFieldFormat := TimeFieldFormat o; TimeFieldName := TimeFieldName o;
     SourceFieldName := SourceFieldName o |}.

(** ** The default logger and the process state *)

(** Modelled from the spec: [NewPrettyHandler] belongs to this package but
    its file is not among the sources; the spec calls it the human-readable
    colorized writer.  It and slog's JSON handler are kept as constructors
    that record the stream and the options they were built with.
    [DefaultHandler] is what slog logs through before any [SetDefault]. *)
Inductive Handler : Type :=
| DefaultHandler
| PrettyHandler (w : File) (o : slog.HandlerOptions)
| JSONHandler (w : File) (o : slog.HandlerOptions).

Definition handler_options (h : Handler) : option slog.HandlerOptions :=
  match h with
  | DefaultHandler => None
  | PrettyHandler _ o => Some o
  | JSONHandler _ o => Some o
  end.

(** What [Configure] reads and writes: the string cells, the package
    variable [DefaultOptions] and slog's default logger. *)
Record World : Type := {
  mem : Mem;
  DefaultOptions : Options;
  slog_default : Handler
}.

Definition initial_World (m : Mem) : World :=
  {| mem := m; DefaultOptions := DefaultOptions_init;
     slog_default := DefaultHandler |}.

(** ** config.go *)

Definition parseLogLevel (level : string) : Z :=
  if String.eqb level "debug" then slog.LevelDebug
  else if String.eqb level "info" then slog.LevelInfo
  else if String.eqb level "warn" then slog.LevelWarn
  else if String.eqb level "error" then slog.LevelError
  else slog.LevelInfo.

Section Configure.

(** [strings.ToLower] and [time.Time.Format], from Go's standard library. *)
Variable ToLower : string -> string.
Variable Format : time.Time -> string -> string.

(** The closure [replaceAttrs]; [opts] is the variable it captures.  The
    first argument (the open groups) is ignored, as in the source. *)
Definition replaceAttrs (opts : Options) (_ : list string) (a : slog.Attr)
  : result slog.Attr :=
  if String.eqb (slog.Key a) slog.LevelKey then
    Ok {| slog.Key := LevelFieldName opts; slog.Val := slog.Val a |}
  else if String.eqb (slog.Key a) slog.TimeKey then
    let a := {| slog.Key := TimeFieldName opts; slog.Val := slog.Val a |} in
    t ← slog.Value_Time (slog.Val a);
    Ok {| slog.Key := slog.Key a;
          slog.Val := slog.StringValue (Format t (TimeFieldFormat opts)) |}
  else if String.eqb (slog.Key a) slog.SourceKey then
    if negb (String.eqb (SourceFieldName opts) "") then
      Ok {| slog.Key := SourceFieldName opts; slog.Val := slog.Val a |}
    else Ok a
  else Ok a.

(** [for i, header := range s { s[i] = strings.ToLower(header) }]: the
    range expression is evaluated once, [header] is read at the start of
    each iteration. *)
Definition downcase (s : Slice) (m : Mem) : Mem :=
  fold_left (fun m i => let header := index m s i in
                        set_index m s i (ToLower header))
            (seq 0 (len s)) m.

(** The defaults applied to the local copy [opts] (lines 100-116). *)
Definition normalize (opts : Options) : Options :=
  let opts := if String.eqb (LevelFieldName opts) ""
              then set_LevelFieldName "level" opts else opts in
  let opts := if String.eqb (TimeFieldFormat opts) ""
              then set_TimeFieldFormat time.RFC3339Nano opts else opts in
  let opts := if String.eqb (TimeFieldName opts) ""
              then set_TimeFieldName "timestamp" opts else opts in
  let opts := if Nat.ltb 0 (len (QuietDownRoutes opts))
              then if Z.eqb (QuietDownPeriod opts) 0
                   then set_QuietDownPeriod (5 * time.Minute) opts else opts
              else opts in
  opts.

(** The literal [&slog.HandlerOptions{...}] (lines 145-149), with
    [addSource] as lines 125-128 compute it. *)
Definition handlerOpts (opts : Options) : slog.HandlerOptions :=
  let addSource := negb (String.eqb (SourceFieldName opts) "") in
  {| slog.Level := parseLogLevel (LogLevel opts);
     slog.ReplaceAttr := replaceAttrs opts;
     slog.AddSource := addSource |}.

Definition Configure (opts : Options) (w : World) : World :=
  let opts := normalize opts in
  let m := downcase (SkipHeaders opts) (mem w) in
  {| mem := m;
     DefaultOptions := opts;
     slog_default := if negb (JSON opts)
                     then PrettyHandler Stdout (handlerOpts opts)
                     else JSONHandler Stderr (handlerOpts opts) |}.

(** The attribute-rewrite hook and the minimum level of the installed
    logger, if one was installed. *)
Definition installed_hook (w : World)
  : option (list string -> slog.Attr -> result slog.Attr) :=
  slog.ReplaceAttr <$> handler_options (slog_default w).

Definition installed_level (w : World) : option Z :=
  slog.Level <$> handler_options (slog_default w).

(** Whether the installed logger captures the source location. *)
Definition installed_AddSource (w : World) : option bool :=
  slog.AddSource <$> handler_options (slog_default w).

(** The published skip-header names, read through the published slice. *)
Definition published_SkipHeaders (w : World) : list string :=
  elems (mem w) (SkipHeaders (DefaultOptions w)).


End Configure.

(** ** A concrete instance of the two library functions

    Used to evaluate the model on concrete inputs.  [ToLower_ascii] is
    [strings.ToLower] on strings of ASCII bytes (its fast path: the bytes
    'A'..'Z' are moved to 'a'..'z', every other byte is kept);
    [Format_sample] stands for a formatter that prints the location after
    the layout. *)

Definition lower_byte (c : ascii) : ascii :=
  let n := nat_of_ascii c in
  if (65 <=? n)%nat && (n <=? 90)%nat then ascii_of_nat (n + 32) else c.

Fixpoint ToLower_ascii (s : string) : string :=
  match s with
  | EmptyString => EmptyString
  | String c r => String (lower_byte c) (ToLower_ascii r)
  end.

Definition Format_sample (t : time.Time) (layout : string) : string :=
  layout ++ "@" ++ time.loc t.

(** A store holding two header names in cells 10 and 11 and a route in
    cell 20. *)
Definition mem_sample : Mem :=
  fun a => match a with
           | 10 => "Authorization"
           | 11 => "X-Api-Key"
           | 20 => "/health"
           | _ => ""
           end.

Definition opts_sample : Options := {|
  LogLevel := "warn";
  LevelFieldName := "severity";
  JSON := true;
  Concise := false;
  Tags := Some {[ "env" := "prod" ]};
  SkipHeaders := {| data := 10; len := 2; cap := 2 |};
  QuietDownRoutes := {| data := 20; len := 1; cap := 1 |};
  QuietDownPeriod := 0;
  TimeFieldFormat := "";
  TimeFieldName := "";
  SourceFieldName := ""
|}.

(** A second configuration: an unrecognized level, pretty output, no
    routes, and a skipHeaders slice that shares cell 11 with [opts_sample]'s. *)
Definition opts_other : Options := {|
  LogLevel := "WARN";
  LevelFieldName := "";
  JSON := false;
  Concise := true;
  Tags := None;
  SkipHeaders := {| data := 11; len := 1; cap := 1 |};
  QuietDownRoutes := nil_slice;
  QuietDownPeriod := 42;
  TimeFieldFormat := "15:04:05";
  TimeFieldName := "ts";
  SourceFieldName := "caller"
|}.

(** [opts_sample] with the level and the output backend changed. *)
Definition opts_sample_pretty : Options := {|
  LogLevel := "debug";
  LevelFieldName := "severity";
  JSON := false;
  Concise := true;
  Tags := None;
  SkipHeaders := nil_slice;
  QuietDownRoutes := nil_slice;
  QuietDownPeriod := 0;
  TimeFieldFormat := "";
  TimeFieldName := "";
  SourceFieldName := ""
|}.

Definition World_sample : World := initial_World mem_sample.







Definition t_sample : time.Time :=
  {| time.wall := 0; time.ext := 63834000000; time.loc := "UTC" |}.

(** * Properties *)

(** ** The sample instance *)

Lemma lower_byte_idem (c : ascii) : lower_byte (lower_byte c) = lower_byte c.
Proof. destruct c as [[] [] [] [] [] [] [] []]; reflexivity. Qed.

Lemma ToLower_ascii_idem (s : string) :
  ToLower_ascii (ToLower_ascii s) = ToLower_ascii s.
Proof.
  induction s as [|c r IH]; simpl; [reflexivity|].
  rewrite lower_byte_idem, IH. reflexivity.
Qed.

(** ** Field defaults *)

Ltac case_normalize :=
  unfold normalize;
  repeat match goal with
         | |- context [if ?b then _ else _] => destruct b eqn:?
         end;
  simpl in *.

(** The fields [normalize] never assigns. *)
Lemma normalize_frame (o : Options) :
  LogLevel (normalize o) = LogLevel o /\
  JSON (normalize o) = JSON o /\
  Concise (normalize o) = Concise o /\
  Tags (normalize o) = Tags o /\
  SkipHeaders (normalize o) = SkipHeaders o /\
  QuietDownRoutes (normalize o) = QuietDownRoutes o /\
  SourceFieldName (normalize o) = SourceFieldName o.
Proof. case_normalize; repeat split; reflexivity. Qed.

Lemma normalize_LevelFieldName (o : Options) :
  LevelFieldName (normalize o)
  = if String.eqb (LevelFieldName o) "" then "level" else LevelFieldName o.
Proof. case_normalize; congruence. Qed.

Lemma normalize_TimeFieldName (o : Options) :
  TimeFieldName (normalize o)
  = if String.eqb (TimeFieldName o) "" then "timestamp" else TimeFieldName o.
Proof. case_normalize; congruence. Qed.

Lemma normalize_TimeFieldFormat (o : Options) :
  TimeFieldFormat (normalize o)
  = if String.eqb (TimeFieldFormat o) "" then time.RFC3339Nano
    else TimeFieldFormat o.
Proof. case_normalize; congruence. Qed.

Lemma normalize_QuietDownPeriod (o : Options) :
  QuietDownPeriod (normalize o)
  = if Nat.ltb 0 (len (QuietDownRoutes o))
    then if Z.eqb (QuietDownPeriod o) 0 then (5 * time.Minute)%Z
         else QuietDownPeriod o
    else QuietDownPeriod o.
Proof. case_normalize; congruence. Qed.

(** ** The in-place loop over [SkipHeaders] *)

Section Store.

Variable ToLower : string -> string.

Lemma downcase_from (s : Slice) (n k : nat) (m : Mem) (a : nat) :
  fold_left (fun m i => let header := index m s i in
                        set_index m s i (ToLower header)) (seq k n) m a
  = if decide (data s + k <= a < data s + k + n) then ToLower (m a) else m a.
Proof.
  revert k m. induction n as [|n IH]; intros k m; simpl.
  - case_decide; [lia | reflexivity].
  - rewrite IH. unfold set_index, index. cbv zeta.
    destruct (decide (data s + k = a)) as [<-|Hne].
    + rewrite fn_lookup_insert.
      repeat case_decide; try lia; reflexivity.
    + rewrite fn_lookup_insert_ne by exact Hne.
      repeat case_decide; try lia; reflexivity.
Qed.

(** Every cell of the slice is lower-cased once; no other cell changes. *)
Lemma downcase_lookup (s : Slice) (m : Mem) (a : nat) :
  downcase ToLower s m a
  = if decide (in_slice s a) then ToLower (m a) else m a.
Proof.
  unfold downcase. rewrite downcase_from. unfold in_slice.
  repeat case_decide; try lia; reflexivity.
Qed.

Lemma elems_ext (m1 m2 : Mem) (s : Slice) (f : string -> string) :
  (forall a, in_slice s a -> m1 a = f (m2 a)) ->
  elems m1 s = map f (elems m2 s).
Proof.
  intros H. unfold elems. rewrite map_map. apply map_ext_in.
  intros i Hi. apply in_seq in Hi. unfold index. apply H.
  unfold in_slice. lia.
Qed.

Lemma elems_downcase (s : Slice) (m : Mem) :
  elems (downcase ToLower s m) s = map ToLower (elems m s).
Proof.
  apply elems_ext. intros a Ha. rewrite downcase_lookup.
  case_decide; [reflexivity | contradiction].
Qed.

Lemma elems_downcase_disjoint (s t : Slice) (m : Mem) :
  disjoint_slices s t -> elems (downcase ToLower s m) t = elems m t.
Proof.
  intros Hd. rewrite <- (map_id (elems m t)). apply elems_ext.
  intros a Ha. rewrite downcase_lookup. unfold in_slice, disjoint_slices in *.
  case_decide; [lia | reflexivity].
Qed.


Lemma length_elems (m : Mem) (s : Slice) : length (elems m s) = len s.
Proof. unfold elems. rewrite length_map, length_seq. reflexivity. Qed.

End Store.

(** ** What [Configure] publishes and installs *)

Section Claims.

Variable ToLower : string -> string.
Variable Format : time.Time -> string -> string.

Lemma Configure_DefaultOptions (opts : Options) (w : World) :
  DefaultOptions (Configure ToLower Format opts w) = normalize opts.
Proof. reflexivity. Qed.

Lemma Configure_mem (opts : Options) (w : World) :
  mem (Configure ToLower Format opts w)
  = downcase ToLower (SkipHeaders opts) (mem w).
Proof.
  unfold Configure; simpl.
  destruct (normalize_frame opts) as (_ & _ & _ & _ & -> & _). reflexivity.
Qed.

Lemma Configure_handler_options (opts : Options) (w : World) :
  handler_options (slog_default (Configure ToLower Format opts w))
  = Some (handlerOpts Format (normalize opts)).
Proof.
  unfold Configure; simpl. destruct (negb (JSON (normalize opts))); reflexivity.
Qed.

Lemma Configure_installed_hook (opts : Options) (w : World) :
  installed_hook (Configure ToLower Format opts w)
  = Some (replaceAttrs Format (normalize opts)).
Proof. unfold installed_hook. rewrite Configure_handler_options. reflexivity. Qed.

(** The hook fails exactly on an attribute keyed "time" whose value is not
    of kind Time. *)
Lemma replaceAttrs_returns_iff (opts : Options) (groups : list string)
    (a : slog.Attr) :
  returns (replaceAttrs Format opts groups a)
  <-> (slog.Key a = slog.TimeKey -> slog.Value_Kind (slog.Val a) = slog.KindTime).
Proof.
  unfold replaceAttrs.
  destruct (String.eqb_spec (slog.Key a) slog.LevelKey) as [Hl|Hl].
  - simpl. split; [|trivial]. intros _ Ht. rewrite Hl in Ht. discriminate.
  - destruct (String.eqb_spec (slog.Key a) slog.TimeKey) as [Ht|Ht].
    + destruct (slog.Val a); simpl; split; intros H;
        try reflexivity; try exact I; try contradiction;
        specialize (H Ht); discriminate.
    + destruct (String.eqb (slog.Key a) slog.SourceKey);
        [destruct (negb _)|]; simpl; split; trivial; intros _ H; contradiction.
Qed.

(** C1: for every options value, the hook that Configure installs rewrites
    an attribute keyed as the level to the published levelFieldName (value
    kept), and an attribute keyed as the time, holding a time value, to the
    published timeFieldName with the string that formatting that time with
    the published timeFieldFormat gives.  The hook tells the kind of an
    attribute by its key; the published names are the configured ones after
    defaulting. *)
Theorem hook_rewrites_level_and_time (opts : Options) (w : World) :
  let w' := Configure ToLower Format opts w in
  exists h, installed_hook w' = Some h /\
    (forall groups a, slog.Key a = slog.LevelKey ->
       h groups a = Ok {| slog.Key := LevelFieldName (DefaultOptions w');
                          slog.Val := slog.Val a |}) /\
    (forall groups a t, slog.Key a = slog.TimeKey ->
       slog.Val a = slog.TimeValue t ->
       h groups a
       = Ok {| slog.Key := TimeFieldName (DefaultOptions w');
               slog.Val := slog.StringValue
                             (Format t (TimeFieldFormat (DefaultOptions w'))) |}).
Proof.
  intros w'. exists (replaceAttrs Format (normalize opts)).
  split; [apply Configure_installed_hook|].
  subst w'. rewrite Configure_DefaultOptions. split.
  - intros groups a Hk. unfold replaceAttrs. rewrite Hk. reflexivity.
  - intros groups a t Hk Hv. unfold replaceAttrs. rewrite Hk, Hv. reflexivity.
Qed.

(** C2 (amended): the hook tells an attribute's kind by its key alone and
    ignores the open groups.  An attribute whose key is none of "level",
    "time" and "source" comes back from the installed hook with the same
    key and the same value, in whatever group it is.  (A user attribute
    that reuses one of the three keys is rewritten like the built-in
    one.) *)
Theorem hook_passes_other_keys_through (opts : Options) (w : World)
    (groups : list string) (a : slog.Attr) :
  slog.Key a <> slog.LevelKey ->
  slog.Key a <> slog.TimeKey ->
  slog.Key a <> slog.SourceKey ->
  exists h, installed_hook (Configure ToLower Format opts w) = Some h /\
            h groups a = Ok a.
Proof.
  intros Hl Ht Hs. exists (replaceAttrs Format (normalize opts)).
  split; [apply Configure_installed_hook|].
  unfold replaceAttrs.
  apply String.eqb_neq in Hl, Ht, Hs. rewrite Hl, Ht, Hs. reflexivity.
Qed.

(** C3 (the code departs from the claim): whatever the options, the
    installed hook panics on an attribute keyed "time" that carries a
    string, because it calls Value.Time without looking at the kind. *)
Theorem hook_panics_on_time_key_with_string_value (opts : Options)
    (w : World) (groups : list string) (s : string) :
  exists h, installed_hook (Configure ToLower Format opts w) = Some h /\
            h groups {| slog.Key := "time"; slog.Val := slog.StringValue s |}
            = Panic "Value kind is String, not Time".
Proof.
  exists (replaceAttrs Format (normalize opts)).
  split; [apply Configure_installed_hook | reflexivity].
Qed.

(** C4: with a non-empty quietDownRoutes and a quietDownPeriod of 0,
    Configure publishes a quietDownPeriod of 5 minutes (300000000000 ns);
    with an empty quietDownRoutes the period is published unchanged. *)
Theorem Configure_quiet_down_period (opts : Options) (w : World) :
  let p := DefaultOptions (Configure ToLower Format opts w) in
  (0 < len (QuietDownRoutes opts) -> QuietDownPeriod opts = 0%Z ->
     QuietDownPeriod p = (5 * time.Minute)%Z
     /\ QuietDownPeriod p = 300000000000%Z) /\
  (len (QuietDownRoutes opts) = 0 -> QuietDownPeriod p = QuietDownPeriod opts).
Proof.
  intros p. subst p. rewrite Configure_DefaultOptions, normalize_QuietDownPeriod.
  split.
  - intros Hlen Hz. apply Nat.ltb_lt in Hlen. rewrite Hlen, Hz. split; reflexivity.
  - intros Hlen. rewrite Hlen. reflexivity.
Qed.

(** C5: Configure publishes "level" for an empty levelFieldName,
    "timestamp" for an empty timeFieldName and the RFC3339Nano layout for an
    empty timeFieldFormat; a non-empty input is published as given. *)
Theorem Configure_field_defaults (opts : Options) (w : World) :
  let p := DefaultOptions (Configure ToLower Format opts w) in
  (LevelFieldName opts = "" -> LevelFieldName p = "level") /\
  (LevelFieldName opts <> "" -> LevelFieldName p = LevelFieldName opts) /\
  (TimeFieldName opts = "" -> TimeFieldName p = "timestamp") /\
  (TimeFieldName opts <> "" -> TimeFieldName p = TimeFieldName opts) /\
  (TimeFieldFormat opts = "" ->
     TimeFieldFormat p = "2006-01-02T15:04:05.999999999Z07:00") /\
  (TimeFieldFormat opts <> "" -> TimeFieldFormat p = TimeFieldFormat opts).
Proof.
  intros p. subst p. rewrite Configure_DefaultOptions.
  rewrite normalize_LevelFieldName, normalize_TimeFieldName,
    normalize_TimeFieldFormat.
  repeat split; intros H;
    first [ rewrite H; reflexivity
          | apply String.eqb_neq in H; rewrite H; reflexivity ].
Qed.

Lemma parseLogLevel_other (s : string) :
  s <> "debug" -> s <> "info" -> s <> "warn" -> s <> "error" ->
  parseLogLevel s = slog.LevelInfo.
Proof.
  intros Hd Hi Hw He. unfold parseLogLevel.
  apply String.eqb_neq in Hd, Hi, Hw, He. rewrite Hd, Hi, Hw, He. reflexivity.
Qed.

(** C6: the minimum severity Configure installs is parseLogLevel of the
    logLevel string: debug for "debug", info for "info", warn for "warn",
    error for "error" and info for every other string; a level is always
    installed. *)
Theorem Configure_minimum_level (opts : Options) (w : World) :
  exists lvl,
    installed_level (Configure ToLower Format opts w) = Some lvl /\
    lvl = parseLogLevel (LogLevel opts) /\
    (LogLevel opts = "debug" -> lvl = slog.LevelDebug) /\
    (LogLevel opts = "info" -> lvl = slog.LevelInfo) /\
    (LogLevel opts = "warn" -> lvl = slog.LevelWarn) /\
    (LogLevel opts = "error" -> lvl = slog.LevelError) /\
    (LogLevel opts <> "debug" -> LogLevel opts <> "info" ->
     LogLevel opts <> "warn" -> LogLevel opts <> "error" ->
     lvl = slog.LevelInfo).
Proof.
  exists (parseLogLevel (LogLevel opts)). split.
  - unfold installed_level. rewrite Configure_handler_options. simpl.
    destruct (normalize_frame opts) as (-> & _). reflexivity.
  - split; [reflexivity|].
    repeat split; try (intros ->; reflexivity). apply parseLogLevel_other.
Qed.

(** C7: after Configure the published skipHeaders is the slice that was
    passed in, so it has the length and order of the input, and what it
    holds is the input's entries, each lower-cased, position by position. *)
Theorem Configure_downcases_SkipHeaders (opts : Options) (w : World) :
  let w' := Configure ToLower Format opts w in
  let input := elems (mem w) (SkipHeaders opts) in
  SkipHeaders (DefaultOptions w') = SkipHeaders opts /\
  published_SkipHeaders w' = map ToLower input /\
  length (published_SkipHeaders w') = length input /\
  (forall i x, input !! i = Some x ->
               published_SkipHeaders w' !! i = Some (ToLower x)).
Proof.
  intros w' input.
  assert (Hs : SkipHeaders (DefaultOptions w') = SkipHeaders opts).
  { subst w'. rewrite Configure_DefaultOptions.
    destruct (normalize_frame opts) as (_ & _ & _ & _ & -> & _). reflexivity. }
  assert (Hp : published_SkipHeaders w' = map ToLower input).
  { unfold published_SkipHeaders. rewrite Hs. subst w'.
    rewrite Configure_mem. apply elems_downcase. }
  split; [exact Hs|]. split; [exact Hp|]. rewrite Hp. split.
  - apply length_map.
  - intros i x Hi. change (map ToLower input) with (ToLower <$> input).
    rewrite list_lookup_fmap, Hi. reflexivity.
Qed.

(** C8: with json true Configure installs the JSON handler on the standard
    error stream, with json false the pretty handler on the standard output
    stream; either is built from the same handler options. *)
Theorem Configure_selects_backend (opts : Options) (w : World) :
  let w' := Configure ToLower Format opts w in
  (JSON opts = true ->
     slog_default w' = JSONHandler Stderr (handlerOpts Format (normalize opts))) /\
  (JSON opts = false ->
     slog_default w' = PrettyHandler Stdout (handlerOpts Format (normalize opts))).
Proof.
  intros w'. subst w'. unfold Configure; simpl.
  destruct (normalize_frame opts) as (_ & -> & _).
  split; intros ->; reflexivity.
Qed.



End Claims.

(** ** The statements at the sample configurations *)

Lemma hook_rewrites_level_and_time_witness :
  exists h,
    installed_hook (Configure ToLower_ascii Format_sample opts_sample World_sample)
    = Some h /\
    h [] {| slog.Key := "level"; slog.Val := slog.Int64Value 4 |}
    = Ok {| slog.Key := "severity"; slog.Val := slog.Int64Value 4 |} /\
    h [] {| slog.Key := "time"; slog.Val := slog.TimeValue t_sample |}
    = Ok {| slog.Key := "timestamp";
            slog.Val := slog.StringValue
                          "2006-01-02T15:04:05.999999999Z07:00@UTC" |}.
Proof.
  destruct (hook_rewrites_level_and_time ToLower_ascii Format_sample
              opts_sample World_sample) as (h & Hh & Hl & Ht).
  exists h. split; [exact Hh|]. split.
  - apply (Hl [] {| slog.Key := "level"; slog.Val := slog.Int64Value 4 |}).
    reflexivity.
  - apply (Ht [] {| slog.Key := "time"; slog.Val := slog.TimeValue t_sample |}
              t_sample); reflexivity.
Defined.

Lemma hook_passes_other_keys_through_witness :
  exists h,
    installed_hook (Configure ToLower_ascii Format_sample opts_sample World_sample)
    = Some h /\
    h ["request"] {| slog.Key := "msg"; slog.Val := slog.StringValue "GET /" |}
    = Ok {| slog.Key := "msg"; slog.Val := slog.StringValue "GET /" |}.
Proof.
  apply (hook_passes_other_keys_through ToLower_ascii Format_sample
           opts_sample World_sample ["request"]
           {| slog.Key := "msg"; slog.Val := slog.StringValue "GET /" |});
    apply String.eqb_neq; reflexivity.
Defined.

Lemma Configure_quiet_down_period_witness :
  QuietDownPeriod
    (DefaultOptions (Configure ToLower_ascii Format_sample opts_sample World_sample))
  = 300000000000%Z /\
  QuietDownPeriod
    (DefaultOptions (Configure ToLower_ascii Format_sample opts_other World_sample))
  = 42%Z.
Proof.
  split.
  - apply (proj1 (Configure_quiet_down_period ToLower_ascii Format_sample
                    opts_sample World_sample)); [simpl; lia | reflexivity].
  - apply (proj2 (Configure_quiet_down_period ToLower_ascii Format_sample
                    opts_other World_sample)). reflexivity.
Defined.

Lemma Configure_field_defaults_witness :
  let p := DefaultOptions
             (Configure ToLower_ascii Format_sample opts_sample World_sample) in
  LevelFieldName p = "severity" /\ TimeFieldName p = "timestamp" /\
  TimeFieldFormat p = "2006-01-02T15:04:05.999999999Z07:00".
Proof.
  destruct (Configure_field_defaults ToLower_ascii Format_sample
              opts_sample World_sample) as (_ & Hl & Hn & _ & Hf & _).
  split; [|split].
  - apply Hl. apply String.eqb_neq. reflexivity.
  - apply Hn. reflexivity.
  - apply Hf. reflexivity.
Defined.

Lemma Configure_minimum_level_witness :
  installed_level (Configure ToLower_ascii Format_sample opts_sample World_sample)
  = Some 4%Z /\
  installed_level (Configure ToLower_ascii Format_sample opts_other World_sample)
  = Some 0%Z.
Proof.
  split.
  - destruct (Configure_minimum_level ToLower_ascii Format_sample
                opts_sample World_sample) as (lvl & Hi & _ & _ & _ & Hw & _).
    rewrite Hi. f_equal. apply Hw. reflexivity.
  - destruct (Configure_minimum_level ToLower_ascii Format_sample
                opts_other World_sample) as (lvl & Hi & _ & _ & _ & _ & _ & Ho).
    rewrite Hi. f_equal. apply Ho; apply String.eqb_neq; reflexivity.
Defined.

Lemma Configure_downcases_SkipHeaders_witness :
  published_SkipHeaders
    (Configure ToLower_ascii Format_sample opts_sample World_sample)
  = ["authorization"; "x-api-key"].
Proof.
  apply (proj1 (proj2 (Configure_downcases_SkipHeaders ToLower_ascii
                         Format_sample opts_sample World_sample))).
Defined.

Lemma Configure_selects_backend_witness :
  (exists o, slog_default
               (Configure ToLower_ascii Format_sample opts_sample World_sample)
             = JSONHandler Stderr o) /\
  (exists o, slog_default
               (Configure ToLower_ascii Format_sample opts_other World_sample)
             = PrettyHandler Stdout o).
Proof.
  split; eexists.
  - apply (proj1 (Configure_selects_backend ToLower_ascii Format_sample
                    opts_sample World_sample)). reflexivity.
  - apply (proj2 (Configure_selects_backend ToLower_ascii Format_sample
                    opts_other World_sample)). reflexivity.
Defined.



(** * Further properties of [config.go] *)

(** Options that went through [normalize] are left alone by it. *)
Lemma normalize_idem (o : Options) : normalize (normalize o) = normalize o.
Proof.
  destruct o as [ll lf j c tg sh [qd ql qc] qp tf tn sf].
  unfold normalize; simpl.
  repeat (match goal with
          | |- context [if ?b then _ else _] => destruct b eqn:?
          end; simpl in *);
    try reflexivity; try congruence; try discriminate.
Qed.

Lemma normalize_names_nonempty (o : Options) :
  LevelFieldName (normalize o) <> "" /\
  TimeFieldName (normalize o) <> "" /\
  TimeFieldFormat (normalize o) <> "".
Proof.
  rewrite normalize_LevelFieldName, normalize_TimeFieldName,
    normalize_TimeFieldFormat.
  repeat split.
  - destruct (String.eqb_spec (LevelFieldName o) ""); [discriminate | assumption].
  - destruct (String.eqb_spec (TimeFieldName o) ""); [discriminate | assumption].
  - destruct (String.eqb_spec (TimeFieldFormat o) ""); [discriminate | assumption].
Qed.

Lemma Configure_installed_AddSource (ToLower : string -> string)
    (Format : time.Time -> string -> string) (opts : Options) (w : World) :
  installed_AddSource (Configure ToLower Format opts w)
  = Some (negb (String.eqb (SourceFieldName opts) "")).
Proof.
  unfold installed_AddSource. rewrite Configure_handler_options. simpl.
  destruct (normalize_frame opts) as (_ & _ & _ & _ & _ & _ & ->). reflexivity.
Qed.

Section Hook.

Variable ToLower : string -> string.
Variable Format : time.Time -> string -> string.

(** X1: the installed hook returns an attribute, rather than panicking,
    exactly when the attribute is not keyed "time" or its value is of kind
    Time. *)
Theorem hook_returns_iff_time_value (opts : Options) (w : World)
    (groups : list string) (a : slog.Attr) :
  exists h, installed_hook (Configure ToLower Format opts w) = Some h /\
    (returns (h groups a)
     <-> (slog.Key a = slog.TimeKey ->
          slog.Value_Kind (slog.Val a) = slog.KindTime)).
Proof.
  exists (replaceAttrs Format (normalize opts)).
  split; [apply Configure_installed_hook | apply replaceAttrs_returns_iff].
Qed.

(** X2: an attribute keyed "source" is renamed to sourceFieldName, its
    value kept, when sourceFieldName is not empty; with an empty
    sourceFieldName it comes back unchanged. *)
Theorem hook_source_attribute (opts : Options) (w : World) :
  exists h, installed_hook (Configure ToLower Format opts w) = Some h /\
    forall groups a, slog.Key a = slog.SourceKey ->
      (SourceFieldName opts <> "" ->
         h groups a = Ok {| slog.Key := SourceFieldName opts;
                            slog.Val := slog.Val a |}) /\
      (SourceFieldName opts = "" -> h groups a = Ok a).
Proof.
  exists (replaceAttrs Format (normalize opts)).
  split; [apply Configure_installed_hook|].
  intros groups a Hk. unfold replaceAttrs. rewrite Hk. simpl.
  destruct (normalize_frame opts) as (_ & _ & _ & _ & _ & _ & ->).
  split; intros Hs.
  - apply String.eqb_neq in Hs. rewrite Hs. reflexivity.
  - rewrite Hs. reflexivity.
Qed.

(** X3: the hook changes a value only under the key "time": any other
    attribute comes back with the value it had, and with its own key, the
    published levelFieldName or the published sourceFieldName. *)
Theorem hook_keeps_value_unless_time (opts : Options) (w : World)
    (groups : list string) (a : slog.Attr) :
  slog.Key a <> slog.TimeKey ->
  let p := DefaultOptions (Configure ToLower Format opts w) in
  exists h a', installed_hook (Configure ToLower Format opts w) = Some h /\
    h groups a = Ok a' /\
    slog.Val a' = slog.Val a /\
    (slog.Key a' = slog.Key a \/ slog.Key a' = LevelFieldName p
     \/ slog.Key a' = SourceFieldName p).
Proof.
  intros Ht p. subst p. rewrite Configure_DefaultOptions.
  assert (H : exists a', replaceAttrs Format (normalize opts) groups a = Ok a' /\
            slog.Val a' = slog.Val a /\
            (slog.Key a' = slog.Key a
             \/ slog.Key a' = LevelFieldName (normalize opts)
             \/ slog.Key a' = SourceFieldName (normalize opts))).
  { apply String.eqb_neq in Ht. unfold replaceAttrs. rewrite Ht.
    destruct (String.eqb (slog.Key a) slog.LevelKey).
    { eexists. split; [reflexivity|]. simpl. split; [reflexivity|].
      right. left. reflexivity. }
    destruct (String.eqb (slog.Key a) slog.SourceKey).
    - destruct (negb (String.eqb (SourceFieldName (normalize opts)) "")).
      + eexists. split; [reflexivity|]. simpl. split; [reflexivity|].
        right. right. reflexivity.
      + exists a. split; [reflexivity|]. split; [reflexivity|]. left. reflexivity.
    - exists a. split; [reflexivity|]. split; [reflexivity|]. left. reflexivity. }
  destruct H as (a' & Hr & Hv & Hk).
  exists (replaceAttrs Format (normalize opts)), a'.
  split; [apply Configure_installed_hook|]. split; [exact Hr|].
  split; [exact Hv | exact Hk].
Qed.

Lemma Attr_eta (a : slog.Attr) :
  {| slog.Key := slog.Key a; slog.Val := slog.Val a |} = a.
Proof. destruct a. reflexivity. Qed.

Lemma Ok_rekey_eq (k : string) (a : slog.Attr) :
  Ok {| slog.Key := k; slog.Val := slog.Val a |} = Ok a <-> k = slog.Key a.
Proof.
  split.
  - intros H. injection H as H. rewrite <- H. reflexivity.
  - intros ->. rewrite Attr_eta. reflexivity.
Qed.

(** X4: the hook hands an attribute back unchanged exactly in these cases:
    it is keyed "level" and the published levelFieldName is "level"; it is
    keyed "source" and sourceFieldName is empty or "source"; or it is keyed
    none of "level", "time", "source".  An attribute keyed "time" never
    comes back unchanged. *)
Theorem hook_identity_iff (opts : Options) (w : World)
    (groups : list string) (a : slog.Attr) :
  let p := DefaultOptions (Configure ToLower Format opts w) in
  exists h, installed_hook (Configure ToLower Format opts w) = Some h /\
    (h groups a = Ok a
     <-> (slog.Key a = slog.LevelKey /\ LevelFieldName p = slog.LevelKey)
         \/ (slog.Key a = slog.SourceKey
             /\ (SourceFieldName p = "" \/ SourceFieldName p = slog.SourceKey))
         \/ (slog.Key a <> slog.LevelKey /\ slog.Key a <> slog.TimeKey
             /\ slog.Key a <> slog.SourceKey)).
Proof.
  intros p. subst p. rewrite Configure_DefaultOptions.
  exists (replaceAttrs Format (normalize opts)).
  split; [apply Configure_installed_hook|].
  unfold replaceAttrs.
  destruct (String.eqb_spec (slog.Key a) slog.LevelKey) as [Hl|Hl].
  { rewrite Ok_rekey_eq, Hl. split.
    - intros H. left. split; [reflexivity | exact H].
    - intros [[_ H]|[[H _]|[H _]]]; [exact H | discriminate | contradiction]. }
  destruct (String.eqb_spec (slog.Key a) slog.TimeKey) as [Ht|Ht].
  { split.
    - destruct a as [k v]. destruct v; simpl; intros H; discriminate.
    - intros [[H _]|[[H _]|(_ & H & _)]];
        [contradiction | rewrite Ht in H; discriminate | contradiction]. }
  destruct (String.eqb_spec (slog.Key a) slog.SourceKey) as [Hs|Hs].
  { destruct (String.eqb_spec (SourceFieldName (normalize opts)) "") as [He|He];
      simpl.
    - split; [|reflexivity]. intros _. right. left. split; [exact Hs|].
      left. exact He.
    - rewrite Ok_rekey_eq, Hs. split.
      + intros H. right. left. split; [reflexivity|]. right. exact H.
      + intros [[H _]|[[_ [H|H]]|(_ & _ & H)]];
          [discriminate | contradiction | exact H | contradiction]. }
  split; [|reflexivity]. intros _. right. right. repeat split; assumption.
Qed.

(** X5: if the attribute's key is not empty, neither is the key of what
    the hook returns: the level and time names are defaulted when empty
    and an empty sourceFieldName is never used as a key. *)
Theorem hook_never_empties_key (opts : Options) (w : World)
    (groups : list string) (a a' : slog.Attr) :
  slog.Key a <> "" ->
  exists h, installed_hook (Configure ToLower Format opts w) = Some h /\
    (h groups a = Ok a' -> slog.Key a' <> "").
Proof.
  intros Hne. exists (replaceAttrs Format (normalize opts)).
  split; [apply Configure_installed_hook|].
  destruct (normalize_names_nonempty opts) as (Hl & Ht & _).
  unfold replaceAttrs.
  destruct (String.eqb (slog.Key a) slog.LevelKey).
  { intros H. injection H as <-. exact Hl. }
  destruct (String.eqb (slog.Key a) slog.TimeKey).
  { simpl. destruct (slog.Value_Time (slog.Val a)); simpl; intros H;
      [injection H as <-; exact Ht | discriminate]. }
  destruct (String.eqb (slog.Key a) slog.SourceKey).
  { destruct (String.eqb_spec (SourceFieldName (normalize opts)) "") as [He|He];
      simpl; intros H; injection H as <-; assumption. }
  intros H. injection H as <-. exact Hne.
Qed.

(** X6: the hook depends on the options only through levelFieldName,
    timeFieldName, timeFieldFormat and sourceFieldName, and not on the
    open groups: configurations that agree on the four install hooks that
    agree on every attribute, whatever the other fields and the state. *)
Theorem hook_depends_on_field_names (o1 o2 : Options) (w1 w2 : World)
    (groups1 groups2 : list string) (a : slog.Attr) :
  LevelFieldName o1 = LevelFieldName o2 ->
  TimeFieldName o1 = TimeFieldName o2 ->
  TimeFieldFormat o1 = TimeFieldFormat o2 ->
  SourceFieldName o1 = SourceFieldName o2 ->
  exists h1 h2,
    installed_hook (Configure ToLower Format o1 w1) = Some h1 /\
    installed_hook (Configure ToLower Format o2 w2) = Some h2 /\
    h1 groups1 a = h2 groups2 a.
Proof.
  intros Hl Hn Hf Hs.
  exists (replaceAttrs Format (normalize o1)), (replaceAttrs Format (normalize o2)).
  split; [apply Configure_installed_hook|].
  split; [apply Configure_installed_hook|].
  unfold replaceAttrs.
  destruct (normalize_frame o1) as (_ & _ & _ & _ & _ & _ & ->).
  destruct (normalize_frame o2) as (_ & _ & _ & _ & _ & _ & ->).
  rewrite !normalize_LevelFieldName, !normalize_TimeFieldName,
    !normalize_TimeFieldFormat, Hl, Hn, Hf, Hs.
  reflexivity.
Qed.

End Hook.

Section Published.

Variable ToLower : string -> string.
Variable Format : time.Time -> string -> string.

(** X7: whatever the input, the published levelFieldName, timeFieldName
    and timeFieldFormat are never the empty string. *)
Theorem Configure_names_nonempty (opts : Options) (w : World) :
  let p := DefaultOptions (Configure ToLower Format opts w) in
  LevelFieldName p <> "" /\ TimeFieldName p <> "" /\ TimeFieldFormat p <> "".
Proof.
  intros p. subst p. rewrite Configure_DefaultOptions.
  apply normalize_names_nonempty.
Qed.

(** X8: published options with a non-empty quietDownRoutes never have a
    quietDownPeriod of 0; a period other than 0, negative ones included, is
    published as given. *)
Theorem Configure_quiet_period_nonzero (opts : Options) (w : World) :
  let p := DefaultOptions (Configure ToLower Format opts w) in
  (0 < len (QuietDownRoutes p) -> QuietDownPeriod p <> 0%Z) /\
  (QuietDownPeriod opts <> 0%Z -> QuietDownPeriod p = QuietDownPeriod opts).
Proof.
  intros p. subst p. rewrite Configure_DefaultOptions.
  destruct (normalize_frame opts) as (_ & _ & _ & _ & _ & -> & _).
  rewrite normalize_QuietDownPeriod. split.
  - intros Hlen. apply Nat.ltb_lt in Hlen. rewrite Hlen.
    destruct (Z.eqb_spec (QuietDownPeriod opts) 0) as [_|Hz];
      [discriminate | exact Hz].
  - intros Hz. apply Z.eqb_neq in Hz. rewrite Hz.
    destruct (Nat.ltb 0 (len (QuietDownRoutes opts))); reflexivity.
Qed.

(** X9: Configure is idempotent.  Calling it again with the same options,
    or with the options it published, publishes the same options and
    installs the same logger; and when lower-casing twice is lower-casing
    once, every string cell is as the first call left it. *)
Theorem Configure_idempotent (opts : Options) (w : World) :
  let w1 := Configure ToLower Format opts w in
  let w2 := Configure ToLower Format opts w1 in
  let w3 := Configure ToLower Format (DefaultOptions w1) w1 in
  DefaultOptions w2 = DefaultOptions w1 /\
  slog_default w2 = slog_default w1 /\
  DefaultOptions w3 = DefaultOptions w1 /\
  slog_default w3 = slog_default w1 /\
  ((forall x, ToLower (ToLower x) = ToLower x) ->
   forall a, mem w2 a = mem w1 a /\ mem w3 a = mem w1 a).
Proof.
  intros w1 w2 w3. split; [reflexivity|]. split; [reflexivity|].
  assert (Ho : DefaultOptions w3 = DefaultOptions w1).
  { subst w3 w1. rewrite !Configure_DefaultOptions. apply normalize_idem. }
  split; [exact Ho|]. split.
  - subst w3 w1. unfold Configure; simpl. rewrite normalize_idem. reflexivity.
  - intros Hidem a. subst w3 w2 w1.
    rewrite !Configure_mem, Configure_DefaultOptions.
    destruct (normalize_frame opts) as (_ & _ & _ & _ & -> & _).
    rewrite !downcase_lookup.
    destruct (decide (in_slice (SkipHeaders opts) a));
      [rewrite Hidem|]; split; reflexivity.
Qed.

(** X10: the only string cells Configure writes are those of the
    skipHeaders slice it was passed, which the caller still holds: each of
    them ends up lower-cased, every other cell keeps its content, so any
    slice sharing no cell with skipHeaders reads as before.  With an empty
    skipHeaders, or one whose entries are already lower-case, no cell
    changes. *)
Theorem Configure_writes_only_SkipHeaders (opts : Options) (w : World) :
  let w' := Configure ToLower Format opts w in
  (forall a, in_slice (SkipHeaders opts) a -> mem w' a = ToLower (mem w a)) /\
  (forall a, ~ in_slice (SkipHeaders opts) a -> mem w' a = mem w a) /\
  (forall t, disjoint_slices (SkipHeaders opts) t ->
             elems (mem w') t = elems (mem w) t) /\
  (len (SkipHeaders opts) = 0 -> forall a, mem w' a = mem w a) /\
  ((forall a, in_slice (SkipHeaders opts) a -> ToLower (mem w a) = mem w a) ->
   forall a, mem w' a = mem w a).
Proof.
  intros w'. subst w'. rewrite Configure_mem. repeat split.
  - intros a Ha. rewrite downcase_lookup.
    destruct (decide (in_slice (SkipHeaders opts) a)); [reflexivity | contradiction].
  - intros a Ha. rewrite downcase_lookup.
    destruct (decide (in_slice (SkipHeaders opts) a)); [contradiction | reflexivity].
  - intros t Hd. apply elems_downcase_disjoint, Hd.
  - intros Hlen a. rewrite downcase_lookup.
    destruct (decide (in_slice (SkipHeaders opts) a)) as [Ha|_]; [|reflexivity].
    unfold in_slice in Ha. lia.
  - intros Hlow a. rewrite downcase_lookup.
    destruct (decide (in_slice (SkipHeaders opts) a)) as [Ha|_];
      [apply Hlow, Ha | reflexivity].
Qed.

(** X11: parseLogLevel gives a level other than info only for that
    level's exact name: debug only for "debug", warn only for "warn", error
    only for "error"; every other string, "info" included, gives info. *)
Theorem parseLogLevel_recognized (s : string) :
  (parseLogLevel s = slog.LevelDebug <-> s = "debug") /\
  (parseLogLevel s = slog.LevelWarn <-> s = "warn") /\
  (parseLogLevel s = slog.LevelError <-> s = "error") /\
  (parseLogLevel s = slog.LevelInfo
   <-> s <> "debug" /\ s <> "warn" /\ s <> "error").
Proof.
  unfold parseLogLevel.
  destruct (String.eqb_spec s "debug") as [->|Hd].
  { simpl. repeat split; try discriminate; try reflexivity.
    intros (H & _). contradiction. }
  destruct (String.eqb_spec s "info") as [->|Hi].
  { simpl. repeat split; try discriminate; try reflexivity. }
  destruct (String.eqb_spec s "warn") as [->|Hw].
  { simpl. repeat split; try discriminate; try reflexivity.
    intros (_ & H & _). contradiction. }
  destruct (String.eqb_spec s "error") as [->|He].
  { simpl. repeat split; try discriminate; try reflexivity.
    intros (_ & _ & H). contradiction. }
  repeat split; try discriminate; try assumption; try reflexivity;
    intros H; contradiction.
Qed.

(** X12: the installed logger captures the source location exactly when
    sourceFieldName is not empty. *)
Theorem Configure_AddSource (opts : Options) (w : World) :
  exists b, installed_AddSource (Configure ToLower Format opts w) = Some b /\
            (b = true <-> SourceFieldName opts <> "").
Proof.
  eexists. split; [apply Configure_installed_AddSource|].
  destruct (String.eqb_spec (SourceFieldName opts) "") as [He|He]; simpl.
  - split; [discriminate | contradiction].
  - split; [intros _; exact He | reflexivity].
Qed.

End Published.

(** ** The further statements at the sample configurations *)

Lemma hook_source_attribute_witness :
  (exists h,
     installed_hook (Configure ToLower_ascii Format_sample opts_other World_sample)
     = Some h /\
     h [] {| slog.Key := "source"; slog.Val := slog.StringValue "main.go:10" |}
     = Ok {| slog.Key := "caller"; slog.Val := slog.StringValue "main.go:10" |}) /\
  (exists h,
     installed_hook (Configure ToLower_ascii Format_sample opts_sample World_sample)
     = Some h /\
     h [] {| slog.Key := "source"; slog.Val := slog.StringValue "main.go:10" |}
     = Ok {| slog.Key := "source"; slog.Val := slog.StringValue "main.go:10" |}).
Proof.
  split.
  - destruct (hook_source_attribute ToLower_ascii Format_sample opts_other
                World_sample) as (h & Hh & Hs).
    exists h. split; [exact Hh|].
    apply (Hs [] {| slog.Key := "source";
                    slog.Val := slog.StringValue "main.go:10" |});
      [reflexivity | apply String.eqb_neq; reflexivity].
  - destruct (hook_source_attribute ToLower_ascii Format_sample opts_sample
                World_sample) as (h & Hh & Hs).
    exists h. split; [exact Hh|].
    apply (Hs [] {| slog.Key := "source";
                    slog.Val := slog.StringValue "main.go:10" |});
      reflexivity.
Defined.

Lemma hook_keeps_value_unless_time_witness :
  exists h a',
    installed_hook (Configure ToLower_ascii Format_sample opts_sample World_sample)
    = Some h /\
    h ["req"] {| slog.Key := "level"; slog.Val := slog.Int64Value 4 |} = Ok a' /\
    slog.Val a' = slog.Int64Value 4.
Proof.
  destruct (hook_keeps_value_unless_time ToLower_ascii Format_sample opts_sample
              World_sample ["req"]
              {| slog.Key := "level"; slog.Val := slog.Int64Value 4 |})
    as (h & a' & Hh & Hr & Hv & _).
  - apply String.eqb_neq. reflexivity.
  - exists h, a'. split; [exact Hh|]. split; [exact Hr | exact Hv].
Defined.

Lemma hook_never_empties_key_witness :
  exists h,
    installed_hook (Configure ToLower_ascii Format_sample opts_sample World_sample)
    = Some h /\
    (h [] {| slog.Key := "time"; slog.Val := slog.TimeValue t_sample |}
     = Ok {| slog.Key := "timestamp";
             slog.Val := slog.StringValue
                           "2006-01-02T15:04:05.999999999Z07:00@UTC" |} ->
     "timestamp" <> "").
Proof.
  apply (hook_never_empties_key ToLower_ascii Format_sample opts_sample
           World_sample []
           {| slog.Key := "time"; slog.Val := slog.TimeValue t_sample |}
           {| slog.Key := "timestamp";
              slog.Val := slog.StringValue
                            "2006-01-02T15:04:05.999999999Z07:00@UTC" |}).
  apply String.eqb_neq. reflexivity.
Defined.

Lemma hook_depends_on_field_names_witness :
  exists h1 h2,
    installed_hook (Configure ToLower_ascii Format_sample opts_sample World_sample)
    = Some h1 /\
    installed_hook
      (Configure ToLower_ascii Format_sample opts_sample_pretty World_sample)
    = Some h2 /\
    h1 [] {| slog.Key := "time"; slog.Val := slog.TimeValue t_sample |}
    = h2 ["req"] {| slog.Key := "time"; slog.Val := slog.TimeValue t_sample |}.
Proof.
  apply (hook_depends_on_field_names ToLower_ascii Format_sample opts_sample
           opts_sample_pretty World_sample World_sample [] ["req"]
           {| slog.Key := "time"; slog.Val := slog.TimeValue t_sample |});
    reflexivity.
Defined.

Lemma Configure_quiet_period_nonzero_witness :
  QuietDownPeriod
    (DefaultOptions (Configure ToLower_ascii Format_sample opts_sample World_sample))
  <> 0%Z /\
  QuietDownPeriod
    (DefaultOptions (Configure ToLower_ascii Format_sample opts_other World_sample))
  = 42%Z.
Proof.
  split.
  - apply (proj1 (Configure_quiet_period_nonzero ToLower_ascii Format_sample
                    opts_sample World_sample)). simpl. lia.
  - apply (proj2 (Configure_quiet_period_nonzero ToLower_ascii Format_sample
                    opts_other World_sample)). simpl. lia.
Defined.

Lemma Configure_idempotent_witness :
  let w1 := Configure ToLower_ascii Format_sample opts_sample World_sample in
  let w2 := Configure ToLower_ascii Format_sample opts_sample w1 in
  let w3 := Configure ToLower_ascii Format_sample (DefaultOptions w1) w1 in
  DefaultOptions w3 = DefaultOptions w1 /\
  mem w2 10 = "authorization" /\ mem w3 11 = "x-api-key".
Proof.
  destruct (Configure_idempotent ToLower_ascii Format_sample opts_sample
              World_sample) as (_ & _ & Ho & _ & Hm).
  split; [exact Ho|]. split.
  - apply (proj1 (Hm ToLower_ascii_idem 10)).
  - apply (proj2 (Hm ToLower_ascii_idem 11)).
Defined.

Lemma Configure_writes_only_SkipHeaders_witness :
  let w' := Configure ToLower_ascii Format_sample opts_sample World_sample in
  mem w' 10 = "authorization" /\ mem w' 20 = "/health" /\
  elems (mem w') {| data := 20; len := 1; cap := 1 |} = ["/health"] /\
  mem (Configure ToLower_ascii Format_sample opts_sample_pretty World_sample) 10
  = "Authorization".
Proof.
  destruct (Configure_writes_only_SkipHeaders ToLower_ascii Format_sample
              opts_sample World_sample) as (Hin & Hout & Hdis & _ & _).
  destruct (Configure_writes_only_SkipHeaders ToLower_ascii Format_sample
              opts_sample_pretty World_sample) as (_ & _ & _ & Hnil & _).
  split; [|split; [|split]].
  - apply (Hin 10). unfold in_slice. simpl. lia.
  - apply (Hout 20). unfold in_slice. simpl. lia.
  - apply (Hdis {| data := 20; len := 1; cap := 1 |}). left. simpl. lia.
  - apply (Hnil eq_refl 10).
Defined.

(** ** Where the claims as first worded fail *)

(** C2 (counterexample): slog hands its built-in level, time and source
    attributes to the hook with no open group, so an attribute inside the
    group "user" is a user attribute, of none of the three kinds.  Keyed
    "level", it is renamed all the same: under [opts_sample] it comes back
    keyed "severity", not unchanged. *)
Lemma hook_renames_user_attribute_keyed_level :
  exists h,
    installed_hook (Configure ToLower_ascii Format_sample opts_sample World_sample)
    = Some h /\
    h ["user"] {| slog.Key := "level"; slog.Val := slog.StringValue "gold" |}
    = Ok {| slog.Key := "severity"; slog.Val := slog.StringValue "gold" |} /\
    h ["user"] {| slog.Key := "level"; slog.Val := slog.StringValue "gold" |}
    <> Ok {| slog.Key := "level"; slog.Val := slog.StringValue "gold" |}.
Proof.
  exists (replaceAttrs Format_sample (normalize opts_sample)).
  split; [apply Configure_installed_hook|].
  split; [reflexivity | discriminate].
Qed.


